(** * Feelin' Flow: the capture / analysis workflow of [App.js]

    A shallow embedding of the [App] component of
    [frontend/src/App.js]: its six pieces of [useState] state, the two
    asynchronous handlers [analyzeText] and [analyzeFace], the
    [useEffect] that arms the five second webcam timer, and the
    [disabled] guards of the two buttons.

    The component is event driven.  An asynchronous handler is cut at
    its single [await]: the part before it runs when the handler is
    called, the part after it runs when the request settles.  One
    [step] of the model is one browser event handled to completion,
    including the effect that a change of [webcamActive] triggers. *)

From Stdlib Require Import String List Bool Arith Lia.
Import ListNotations.
Open Scope string_scope.
Open Scope list_scope.
Open Scope nat_scope.

(** ** Data *)

(** A song of a response body ([name], [artist], [url] and the two
    optional images the render tests before it shows them). *)
Record Song := mkSong {
  name : string;
  artist : string;
  url : string;
  album_image : option string;
  artist_image : option string
}.

(** [res.data] of a 2xx response: [songs] may be absent. *)
Record ResponseData := mkData {
  data_emotion : string;
  data_songs : option (list Song);
  data_details : string
}.

(** What the network gives back for one request: a response with a
    status code, or no response at all. *)
Inductive Reply :=
| HttpResponse (status : nat) (data : ResponseData)
| NetworkError.

(** How the promise of [axios.post] settles. *)
Inductive AxiosResult :=
| Fulfilled (data : ResponseData)
| Rejected.

(** axios resolves exactly the statuses from 200 to 299 (its default
    [validateStatus]) and rejects everything else. *)
Definition is_2xx (status : nat) : bool :=
  (200 <=? status) && (status <? 300).

Definition axios_settle (r : Reply) : AxiosResult :=
  match r with
  | HttpResponse status data => if is_2xx status then Fulfilled data else Rejected
  | NetworkError => Rejected
  end.

(** The two calls of the component, with the body they post. *)
Inductive Call :=
| TextEmotion (text : string)      (* POST /text-emotion { text }  *)
| FaceEmotion (image : string).    (* POST /face-emotion { image } *)

(** The [useState] cells of [App] (the dark mode switch left out). *)
Record State := mkState {
  text : string;
  emotion : string;
  songs : list Song;
  details : string;
  loading : bool;
  webcamActive : bool
}.

(** The component together with the part of the browser it talks to. *)
Record World := mkWorld {
  st : State;
  (** the [timeout] variable the cleanup closure of the last effect
      run holds; [None] is [undefined] *)
  timeout : option nat;
  (** timers set and neither fired nor cleared *)
  timers : list nat;
  (** the identifier the next [setTimeout] returns *)
  next_timer : nat;
  (** number of calls of [getScreenshot] *)
  screenshots : nat;
  (** every [axios.post] made so far, oldest first *)
  posts : list Call;
  (** the requests not settled yet, oldest first *)
  inflight : list Call;
  (** promises of the two handlers that were rejected *)
  rejections : nat
}.

(** ** Setters *)

Definition Cmd := World -> World.

Definition seq (c1 c2 : Cmd) : Cmd := fun w => c2 (c1 w).
Notation "c1 ;; c2" := (seq c1 c2) (at level 61, right associativity).

Definition skip : Cmd := fun w => w.

Definition with_st (f : State -> State) : Cmd := fun w =>
  mkWorld (f (st w)) (timeout w) (timers w) (next_timer w)
          (screenshots w) (posts w) (inflight w) (rejections w).

Definition setText (v : string) : Cmd := with_st (fun s =>
  mkState v (emotion s) (songs s) (details s) (loading s) (webcamActive s)).

Definition setEmotion (v : string) : Cmd := with_st (fun s =>
  mkState (text s) v (songs s) (details s) (loading s) (webcamActive s)).

Definition setSongs (v : list Song) : Cmd := with_st (fun s =>
  mkState (text s) (emotion s) v (details s) (loading s) (webcamActive s)).

Definition setDetails (v : string) : Cmd := with_st (fun s =>
  mkState (text s) (emotion s) (songs s) v (loading s) (webcamActive s)).

Definition setLoading (v : bool) : Cmd := with_st (fun s =>
  mkState (text s) (emotion s) (songs s) (details s) v (webcamActive s)).

(** ** Timers *)

Definition remove_timer (id : nat) (l : list nat) : list nat :=
  filter (fun j => negb (j =? id)) l.

(** [clearTimeout(undefined)] and clearing a timer that has fired do
    nothing. *)
Definition clearTimeout (h : option nat) : Cmd := fun w =>
  match h with
  | None => w
  | Some id =>
      mkWorld (st w) (timeout w) (remove_timer id (timers w)) (next_timer w)
              (screenshots w) (posts w) (inflight w) (rejections w)
  end.

(** [timeout = setTimeout(() => analyzeFace(), 5000)] *)
Definition setTimeout_assign : Cmd := fun w =>
  mkWorld (st w) (Some (next_timer w)) (timers w ++ [next_timer w])
          (S (next_timer w))
          (screenshots w) (posts w) (inflight w) (rejections w).

(** [let timeout;] *)
Definition let_timeout : Cmd := fun w =>
  mkWorld (st w) None (timers w) (next_timer w)
          (screenshots w) (posts w) (inflight w) (rejections w).

(** ** The effect on [webcamActive] *)

(** [return () => clearTimeout(timeout)] *)
Definition effect_cleanup : Cmd := fun w => clearTimeout (timeout w) w.

Definition effect_body : Cmd := fun w =>
  (let_timeout ;;
   if webcamActive (st w)
   then setLoading true ;; setTimeout_assign
   else skip) w.

(** A change of the dependency runs the cleanup of the previous run,
    then the body. *)
Definition rerun_effect : Cmd := effect_cleanup ;; effect_body.

(** Setting the value the cell already has does not render again. *)
Definition setWebcamActive (v : bool) : Cmd := fun w =>
  if Bool.eqb v (webcamActive (st w)) then w
  else (with_st (fun s =>
          mkState (text s) (emotion s) (songs s) (details s) (loading s) v) ;;
        rerun_effect) w.

(** ** The asynchronous handlers *)

(** How a call of an [async] function leaves the first stretch it
    runs: it returned, it is suspended at [await axios.post], or it
    threw. *)
Inductive Async :=
| Return (w : World)
| Await (c : Call) (w : World)
| Throw (w : World).

Definition msg_text : string := "Error occurred while analyzing text".
Definition msg_face : string := "Error occurred while analyzing face".
Definition msg_capture : string := "Failed to capture image from webcam".

(** [res.data.songs || []] *)
Definition songs_or_empty (d : ResponseData) : list Song :=
  match data_songs d with
  | Some l => l
  | None => []
  end.

(** [analyzeText], up to the [await]. *)
Definition analyzeText (w : World) : Async :=
  let w1 := (setLoading true ;; setEmotion "" ;; setSongs [] ;; setDetails "") w in
  Await (TextEmotion (text (st w))) w1.

(** [analyzeText], from the [await] on: the [try] body on a fulfilled
    promise, the [catch] on a rejected one, then [setLoading(false)]. *)
Definition analyzeText_resume (r : AxiosResult) (w : World) : Async :=
  let w1 :=
    match r with
    | Fulfilled d =>
        (setEmotion (data_emotion d) ;; setSongs (songs_or_empty d) ;;
         setDetails (data_details d)) w
    | Rejected =>
        (setEmotion "neutral" ;; setSongs [] ;; setDetails msg_text) w
    end in
  Return (setLoading false w1).

(** [webcamRef.current] is the mounted [<Webcam>], which the render
    has only while [webcamActive]. *)
Definition webcamRef_current (w : World) : bool := webcamActive (st w).

(** [!imageSrc]: [null] and the empty string. *)
Definition falsy (v : option string) : bool :=
  match v with
  | None => true
  | Some s => String.eqb s ""
  end.

Definition count_screenshot : Cmd := fun w =>
  mkWorld (st w) (timeout w) (timers w) (next_timer w)
          (S (screenshots w)) (posts w) (inflight w) (rejections w).

(** [analyzeFace], up to the [await]; [shot] is what [getScreenshot]
    returns this time.  Past the test [!imageSrc] the frame is a
    non-empty string, so the last case of the [match] is never taken. *)
Definition analyzeFace (shot : option string) (w : World) : Async :=
  let w1 := (setLoading true ;; setEmotion "" ;; setSongs [] ;; setDetails "") w in
  if webcamRef_current w1 then
    let w2 := count_screenshot w1 in
    if falsy shot then
      Return ((setLoading false ;; setDetails msg_capture) w2)
    else
      match shot with
      | Some imageSrc => Await (FaceEmotion imageSrc) w2
      | None => Return w2
      end
  else Throw w1.

(** [analyzeFace], from the [await] on. *)
Definition analyzeFace_resume (r : AxiosResult) (w : World) : Async :=
  let w1 :=
    match r with
    | Fulfilled d =>
        (setEmotion (data_emotion d) ;; setSongs (songs_or_empty d) ;;
         setDetails (data_details d)) w
    | Rejected =>
        (setEmotion "neutral" ;; setSongs [] ;; setDetails msg_face) w
    end in
  Return ((setLoading false ;; setWebcamActive false) w1).

(** ** The event loop *)

Definition axios_post (c : Call) : Cmd := fun w =>
  mkWorld (st w) (timeout w) (timers w) (next_timer w)
          (screenshots w) (posts w ++ [c]) (inflight w ++ [c]) (rejections w).

Definition unhandled_rejection : Cmd := fun w =>
  mkWorld (st w) (timeout w) (timers w) (next_timer w)
          (screenshots w) (posts w) (inflight w) (S (rejections w)).

(** What the browser does with the outcome of a handler. *)
Definition settle (a : Async) : World :=
  match a with
  | Return w => w
  | Await c w => axios_post c w
  | Throw w => unhandled_rejection w
  end.

Fixpoint remove_nth {A} (n : nat) (l : list A) : list A :=
  match n, l with
  | _, [] => []
  | O, _ :: l' => l'
  | S n', x :: l' => x :: remove_nth n' l'
  end.

Definition take_inflight (n : nat) : Cmd := fun w =>
  mkWorld (st w) (timeout w) (timers w) (next_timer w)
          (screenshots w) (posts w) (remove_nth n (inflight w)) (rejections w).

Definition fire_timer (id : nat) : Cmd := fun w =>
  mkWorld (st w) (timeout w) (remove_timer id (timers w)) (next_timer w)
          (screenshots w) (posts w) (inflight w) (rejections w).

(** [disabled={loading || !text}] of the Analyze Text button. *)
Definition analyze_disabled (s : State) : bool :=
  loading s || String.eqb (text s) "".

(** [disabled={loading}] of the Scan Face button. *)
Definition scan_disabled (s : State) : bool := loading s.

Inductive Event :=
| TypeText (t : string)                       (* onChange of the text field   *)
| ClickAnalyzeText                            (* click on Analyze Text        *)
| ClickScanFace                               (* click on Scan Face           *)
| TimerFires (id : nat) (shot : option string)(* a timer's five seconds end   *)
| Settles (n : nat) (r : Reply)               (* the n-th open request ends   *)
| Teardown.                                   (* the component is unmounted   *)

(** One event handled to completion.  A click on a disabled button
    reaches no handler; a timer that is not pending does not fire; a
    request that is not open does not settle. *)
Definition step (e : Event) (w : World) : World :=
  match e with
  | TypeText t => setText t w
  | ClickAnalyzeText =>
      if analyze_disabled (st w) then w else settle (analyzeText w)
  | ClickScanFace =>
      if scan_disabled (st w) then w
      else setWebcamActive (negb (webcamActive (st w))) w
  | TimerFires id shot =>
      if existsb (Nat.eqb id) (timers w)
      then settle (analyzeFace shot (fire_timer id w))
      else w
  | Settles n r =>
      match nth_error (inflight w) n with
      | Some (TextEmotion _) =>
          settle (analyzeText_resume (axios_settle r) (take_inflight n w))
      | Some (FaceEmotion _) =>
          settle (analyzeFace_resume (axios_settle r) (take_inflight n w))
      | None => w
      end
  | Teardown => effect_cleanup w
  end.

(** The component after its first render: every cell at its initial
    value, the effect run once with [webcamActive = false]. *)
Definition init : World :=
  mkWorld (mkState "" "" [] "" false false) None [] 0 0 [] [] 0.

(** The events of a trace, handled oldest first. *)
Definition run (tr : list Event) (w : World) : World :=
  fold_left (fun w e => step e w) tr w.

(** ** What the render shows *)

(** [emotion && !loading] *)
Definition shows_emotion_card (s : State) : bool :=
  negb (String.eqb (emotion s) "") && negb (loading s).

(** [songs.length > 0 && !loading] *)
Definition shows_feed (s : State) : bool :=
  (0 <? length (songs s)) && negb (loading s).

(** [songs.length === 0 && emotion && !loading] *)
Definition shows_no_songs (s : State) : bool :=
  (length (songs s) =? 0) && negb (String.eqb (emotion s) "") && negb (loading s).

(** Runs the setters of a handler on a world given by its fields. *)
Ltac model :=
  cbv [settle analyzeText analyzeText_resume analyzeFace analyzeFace_resume
       webcamRef_current axios_post unhandled_rejection take_inflight
       fire_timer count_screenshot setWebcamActive rerun_effect effect_body
       effect_cleanup clearTimeout setTimeout_assign let_timeout
       setText setEmotion setSongs setDetails setLoading with_st seq skip
       remove_nth remove_timer filter
       st timeout timers next_timer screenshots posts inflight rejections
       text emotion songs details loading webcamActive
       Bool.eqb negb app] in *.


(** ** Reachable worlds *)

(** The three situations a reachable world is in: nothing pending;
    the capture timer armed; one request open. *)
Inductive Mode (w : World) : Prop :=
| Quiet :
    timers w = [] -> inflight w = [] -> Mode w
| Armed (id : nat) :
    timers w = [id] -> timeout w = Some id -> inflight w = [] ->
    loading (st w) = true -> webcamActive (st w) = true -> Mode w
| Open (c : Call) :
    timers w = [] -> inflight w = [c] ->
    loading (st w) = true -> emotion (st w) = "" ->
    songs (st w) = [] -> details (st w) = "" -> Mode w.

Definition nonempty_text (c : Call) : Prop :=
  match c with
  | TextEmotion t => t <> ""
  | FaceEmotion i => i <> ""
  end.

Record Inv (w : World) : Prop := mkInv {
  inv_mode : Mode w;
  inv_rejections : rejections w = 0;
  inv_posts : Forall nonempty_text (posts w)
}.

(** A world is reachable when some sequence of events leads to it
    from the first render. *)
Definition reachable (w : World) : Prop := exists tr, w = run tr init.

(** ** Phases

    The component keeps no phase cell.  The phases of the workflow
    are read off the cells it does keep: [loading] while a trigger is
    pending, and, once [loading] is false again, the payload the
    handler left. *)

Definition Loading (s : State) : Prop := loading s = true.

(** The handler left the payload of the response body [d]. *)
Definition Result (d : ResponseData) (s : State) : Prop :=
  loading s = false /\ emotion s = data_emotion d /\
  songs s = songs_or_empty d /\ details s = data_details d.

(** The handler left the diagnostic [msg] and no songs. *)
Definition Error (msg : string) (s : State) : Prop :=
  loading s = false /\ songs s = [] /\ details s = msg.

(** A transport failure, or a status outside 200..299. *)
Definition is_failure (r : Reply) : Prop :=
  match r with
  | HttpResponse status _ => is_2xx status = false
  | NetworkError => True
  end.

(** The fixed diagnostic of the [catch] of each handler. *)
Definition diagnostic (c : Call) : string :=
  match c with
  | TextEmotion _ => msg_text
  | FaceEmotion _ => msg_face
  end.

(** ** Sample data *)

Definition songA : Song := mkSong "Song A" "Artist A" "http://x" None None.

Definition happy : ResponseData := mkData "happy" (Some [songA]) "Upbeat vibes".

Definition calm : ResponseData := mkData "calm" (Some []) "".

(** Text is typed and analysed, and the service answers. *)
Definition tr_text_result : list Event :=
  [TypeText "I feel great"; ClickAnalyzeText; Settles 0 (HttpResponse 200 happy)].

(** Text is typed and submitted; the request is still open. *)
Definition tr_text_open : list Event :=
  [TypeText "I feel great"; ClickAnalyzeText].

(** Scan Face is clicked; the five seconds are running. *)
Definition tr_armed : list Event := [ClickScanFace].

(** The timer fired with a frame; the request is still open. *)
Definition tr_face_open : list Event :=
  [ClickScanFace; TimerFires 0 (Some "data:image/jpeg;base64,AAAA")].

(** The timer fired and the camera had no frame. *)
Definition tr_no_frame : list Event := [ClickScanFace; TimerFires 0 None].

(** ** The cells after a request has settled *)

(** [webcamActive] after the handler of call [c] has finished:
    [analyzeFace] ends with [setWebcamActive(false)]. *)
Definition webcam_after (c : Call) (s : State) : bool :=
  match c with
  | TextEmotion _ => webcamActive s
  | FaceEmotion _ => false
  end.

(** The cells after the open request [c] has settled. *)
Definition settled_state (c : Call) (r : AxiosResult) (s : State) : State :=
  match r with
  | Fulfilled d =>
      mkState (text s) (data_emotion d) (songs_or_empty d) (data_details d)
              false (webcam_after c s)
  | Rejected =>
      mkState (text s) "neutral" [] (diagnostic c) false (webcam_after c s)
  end.

(** The stretch of a handler ended without throwing. *)
Definition completes (a : Async) : Prop :=
  match a with
  | Return _ | Await _ _ => True
  | Throw _ => False
  end.

(** ** The render

    What the JSX of [App] puts on the page for given cells.  Left out:
    the title of the card (the emotion in upper case), the random
    number of likes and the date stamp of each song. *)

(** A value that passes a JavaScript truth test. *)
Definition truthy (v : option string) : bool := negb (falsy v).

(** [v || d] *)
Definition or_default (v : option string) (d : string) : string :=
  match v with
  | Some s => if String.eqb s "" then d else s
  | None => d
  end.

(** [v && <element showing v />] *)
Definition when_truthy (v : option string) : option string :=
  if truthy v then v else None.

Definition placeholder : string := "https://via.placeholder.com/300x200".
Definition curated : string := "Curated based on your mood.".

(** [songs[0]?.album_image] *)
Definition first_album_image (l : list Song) : option string :=
  match l with
  | [] => None
  | x :: _ => album_image x
  end.

(** The card of the emotion. *)
Record EmotionCard := mkCard {
  card_image : string;      (* songs[0]?.album_image || placeholder *)
  card_emotion : string;    (* the emotion the title is made of     *)
  card_details : string;    (* details || "Curated based on ..."    *)
  card_songs : nat          (* songs.length                         *)
}.

(** The card of one song of the feed. *)
Record SongCard := mkSongCard {
  cover : option string;    (* song.album_image && <CardMedia ...>  *)
  link_text : string;       (* song.name                            *)
  link_href : string;       (* song.url                             *)
  byline : string;          (* song.artist                          *)
  avatar : option string    (* song.artist_image && <img ...>       *)
}.

Definition render_song (x : Song) : SongCard :=
  mkSongCard (when_truthy (album_image x)) (name x) (url x) (artist x)
             (when_truthy (artist_image x)).

Definition render_card (s : State) : EmotionCard :=
  mkCard (or_default (first_album_image (songs s)) placeholder)
         (emotion s)
         (if String.eqb (details s) "" then curated else details s)
         (length (songs s)).

Record View := mkView {
  analyze_button_disabled : bool;
  scan_button_disabled : bool;
  scan_button_label : string;
  webcam_mounted : bool;
  spinner : bool;
  card : option EmotionCard;
  feed : option (list SongCard);
  no_songs_line : bool
}.

Definition render (s : State) : View :=
  mkView (analyze_disabled s)
         (scan_disabled s)
         (if webcamActive s then "Analyzing... (5s)" else "Scan Face")
         (webcamActive s)
         (loading s)
         (if shows_emotion_card s then Some (render_card s) else None)
         (if shows_feed s then Some (map render_song (songs s)) else None)
         (shows_no_songs s).

(** ** Dark mode *)

(** [setDarkMode(!darkMode)], the handler of both the icon and the
    switch. *)
Definition toggleDarkMode (darkMode : bool) : bool := negb darkMode.

(** The class of the outer box. *)
Definition wrapper_class (darkMode : bool) : string :=
  "app-wrapper " ++ (if darkMode then "dark" else "light").

(** ** Counting and filtering events *)

Definition is_face (c : Call) : bool :=
  match c with
  | FaceEmotion _ => true
  | TextEmotion _ => false
  end.

Definition face_posts (w : World) : nat := length (filter is_face (posts w)).

Definition is_teardown (e : Event) : bool :=
  match e with
  | Teardown => true
  | _ => false
  end.

Definition is_click (e : Event) : bool :=
  match e with
  | ClickAnalyzeText | ClickScanFace => true
  | _ => false
  end.

Definition is_typing (e : Event) : bool :=
  match e with
  | TypeText _ => true
  | _ => false
  end.

(** The component stays mounted during the whole trace. *)
Definition stays_mounted (tr : list Event) : bool :=
  forallb (fun e => negb (is_teardown e)) tr.

(** With nothing pending [loading] is false, as long as the component
    was never torn down. *)
Definition quiet_idle (w : World) : Prop :=
  timers w = [] -> inflight w = [] -> loading (st w) = false.

(** Runs the setters of a handler and keeps the lists as they are. *)
Ltac model_lists :=
  cbv [settle analyzeText analyzeText_resume analyzeFace analyzeFace_resume
       webcamRef_current axios_post unhandled_rejection take_inflight
       fire_timer count_screenshot setWebcamActive rerun_effect effect_body
       effect_cleanup clearTimeout setTimeout_assign let_timeout
       setText setEmotion setSongs setDetails setLoading with_st seq skip
       st timeout timers next_timer screenshots posts inflight rejections
       text emotion songs details loading webcamActive
       Bool.eqb negb] in *.

(** ** The life of the component

    [step] handles a teardown by running the cleanup of the effect and
    keeps the cells where they are.  What comes after an unmount is
    told here: React drops every call of a setter of an unmounted
    component, the page has no button or field left, and
    [webcamRef.current] is [null]. *)

Inductive Life := Mounted | Unmounted.

Record App := mkApp {
  world : World;
  life : Life
}.

(** The continuation of a handler runs when its request settles, and
    every setter it calls is dropped: the request is closed and no
    cell is written. *)
Definition settle_unmounted (n : nat) : Cmd := take_inflight n.

(** A timer that is still pending fires; the setters of [analyzeFace]
    are dropped and [webcamRef.current.getScreenshot] throws. *)
Definition fire_unmounted (id : nat) : Cmd := fun w =>
  if existsb (Nat.eqb id) (timers w)
  then unhandled_rejection (fire_timer id w)
  else w.

Definition app_step (e : Event) (a : App) : App :=
  match life a with
  | Mounted =>
      match e with
      | Teardown => mkApp (step Teardown (world a)) Unmounted
      | _ => mkApp (step e (world a)) Mounted
      end
  | Unmounted =>
      match e with
      | Settles n _ => mkApp (settle_unmounted n (world a)) Unmounted
      | TimerFires id _ => mkApp (fire_unmounted id (world a)) Unmounted
      | _ => a
      end
  end.

Definition app_init : App := mkApp init Mounted.

Definition app_run (tr : list Event) (a : App) : App :=
  fold_left (fun a e => app_step e a) tr a.

Definition app_reachable (a : App) : Prop := exists tr, a = app_run tr app_init.

(** * Properties *)

Lemma remove_timer_single (id : nat) : remove_timer id [id] = [].
Proof. unfold remove_timer; simpl. now rewrite Nat.eqb_refl. Qed.

Lemma existsb_single (id j : nat) :
  existsb (Nat.eqb id) [j] = true -> id = j.
Proof.
  simpl. rewrite orb_false_r. apply Nat.eqb_eq.
Qed.

Lemma falsy_false (shot : option string) :
  falsy shot = false -> exists img, shot = Some img /\ img <> "".
Proof.
  destruct shot as [img|]; simpl; [|discriminate].
  intros H. exists img. split; [reflexivity|].
  intros ->. discriminate.
Qed.

Lemma Inv_init : Inv init.
Proof.
  split; [apply Quiet| |]; simpl; auto.
Qed.

Lemma Inv_step (e : Event) (w : World) : Inv w -> Inv (step e w).
Proof.
  intros [Hm Hr Hp].
  destruct w as [[tx em sg dt ld wa] to tm nx sc ps fl rj].
  simpl in Hr, Hp. subst rj.
  destruct e as [t| | |id shot|n r|]; unfold step.
  - (* TypeText *)
    split; auto.
    destruct Hm as [Ht Hf|id Ht Ho Hf Hl Ha|c Ht Hf Hl He Hs Hd]; simpl in *.
    + now apply Quiet.
    + now apply (Armed _ id).
    + now apply (Open _ c).
  - (* ClickAnalyzeText *)
    unfold analyze_disabled. simpl.
    destruct ld; simpl; [now split|].
    destruct (String.eqb_spec tx "") as [->|Hne]; simpl; [now split|].
    destruct Hm as [Ht Hf|id Ht Ho Hf Hl Ha|c Ht Hf Hl He Hs Hd];
      simpl in *; try discriminate.
    subst. split; model; auto.
    + now apply (Open _ (TextEmotion tx)).
    + apply Forall_app. split; auto.
  - (* ClickScanFace *)
    unfold scan_disabled. simpl.
    destruct ld; simpl; [now split|].
    destruct Hm as [Ht Hf|id Ht Ho Hf Hl Ha|c Ht Hf Hl He Hs Hd];
      simpl in *; try discriminate.
    subst. destruct wa; destruct to; split; model; auto;
      try (now apply Quiet); now apply (Armed _ nx).
  - (* TimerFires *)
    destruct (existsb (Nat.eqb id) (timers _)) eqn:Hex; [|now split].
    destruct Hm as [Ht Hf|j Ht Ho Hf Hl Ha|c Ht Hf Hl He Hs Hd];
      simpl in *; subst; try discriminate.
    apply existsb_single in Hex. subst j.
    unfold fire_timer. simpl timers. rewrite remove_timer_single. model.
    destruct (falsy shot) eqn:Hfa.
    + split; model; auto. now apply Quiet.
    + destruct (falsy_false _ Hfa) as (img & -> & Hne).
      split; model; auto.
      * now apply (Open _ (FaceEmotion img)).
      * apply Forall_app. split; auto.
  - (* Settles *)
    simpl inflight at 1.
    destruct (nth_error fl n) as [c|] eqn:Hn; [|now split].
    destruct Hm as [Ht Hf|j Ht Ho Hf Hl Ha|c' Ht Hf Hl He Hs Hd];
      simpl in *; subst; try (destruct n; discriminate).
    destruct n as [|n]; [|destruct n; discriminate].
    simpl in Hn. injection Hn as <-.
    destruct c' as [t|img].
    + destruct (axios_settle r); split; model; auto; now apply Quiet.
    + destruct (axios_settle r); destruct wa; destruct to;
        split; model; auto; now apply Quiet.
  - (* Teardown *)
    destruct Hm as [Ht Hf|j Ht Ho Hf Hl Ha|c Ht Hf Hl He Hs Hd];
      simpl in *; subst.
    + destruct to; split; model; auto; now apply Quiet.
    + split; model; rewrite ?Nat.eqb_refl; auto. now apply Quiet.
    + destruct to; split; model; auto; now apply (Open _ c).
Qed.

Lemma run_snoc (tr : list Event) (e : Event) (w : World) :
  run (tr ++ [e]) w = step e (run tr w).
Proof. unfold run. now rewrite fold_left_app. Qed.

Lemma Inv_run (tr : list Event) : Inv (run tr init).
Proof.
  induction tr as [|e tr IH] using rev_ind.
  - apply Inv_init.
  - rewrite run_snoc. now apply Inv_step.
Qed.

Lemma reachable_run (tr : list Event) : reachable (run tr init).
Proof. now exists tr. Qed.

Lemma reachable_Inv (w : World) : reachable w -> Inv w.
Proof. intros [tr ->]. apply Inv_run. Qed.

Lemma reachable_step (e : Event) (w : World) :
  reachable w -> reachable (step e w).
Proof.
  intros [tr ->]. exists (tr ++ [e]). now rewrite run_snoc.
Qed.

(** At most one timer is pending, and while one is the component is
    loading with the webcam on and no request open. *)
Lemma armed_world (w : World) :
  reachable w -> timers w <> [] ->
  exists id, timers w = [id] /\ timeout w = Some id /\ inflight w = [] /\
             loading (st w) = true /\ webcamActive (st w) = true.
Proof.
  intros Hr Hne. destruct (inv_mode _ (reachable_Inv _ Hr))
    as [Ht Hf|id Ht Ho Hf Hl Ha|c Ht Hf Hl He Hs Hd]; try congruence.
  exists id. auto.
Qed.

(** At most one request is open, and while one is the component is
    loading with the payload cleared and no timer pending. *)
Lemma open_world (w : World) :
  reachable w -> inflight w <> [] ->
  exists c, inflight w = [c] /\ timers w = [] /\ loading (st w) = true /\
            emotion (st w) = "" /\ songs (st w) = [] /\ details (st w) = "".
Proof.
  intros Hr Hne. destruct (inv_mode _ (reachable_Inv _ Hr))
    as [Ht Hf|id Ht Ho Hf Hl Ha|c Ht Hf Hl He Hs Hd]; try congruence.
  exists c. auto 7.
Qed.

(** With [loading] false nothing is pending. *)
Lemma idle_world (w : World) :
  reachable w -> loading (st w) = false -> timers w = [] /\ inflight w = [].
Proof.
  intros Hr Hl. destruct (inv_mode _ (reachable_Inv _ Hr))
    as [Ht Hf|id Ht Ho Hf Hl' Ha|c Ht Hf Hl' He Hs Hd]; try congruence.
  auto.
Qed.

Lemma nth_error_open (w : World) (n : nat) (c : Call) :
  reachable w -> nth_error (inflight w) n = Some c ->
  n = 0 /\ inflight w = [c] /\ timers w = [] /\ loading (st w) = true /\
  emotion (st w) = "" /\ songs (st w) = [] /\ details (st w) = "".
Proof.
  intros Hr Hn.
  assert (Hne : inflight w <> []) by (intros E; rewrite E in Hn; destruct n; discriminate).
  destruct (open_world _ Hr Hne) as (c' & Hf & Ht & Hl & He & Hs & Hd).
  rewrite Hf in Hn. destruct n as [|n]; [|destruct n; discriminate].
  simpl in Hn. injection Hn as <-. auto 8.
Qed.

(** While [loading] the render shows neither the emotion card, nor
    the feed, nor the "no songs" line. *)
Lemma loading_hides (s : State) :
  loading s = true ->
  shows_emotion_card s = false /\ shows_feed s = false /\ shows_no_songs s = false.
Proof.
  unfold shows_emotion_card, shows_feed, shows_no_songs.
  intros ->. simpl. now rewrite !andb_false_r.
Qed.


(** ** Loading and the payload *)

(** Activating the capture sets [loading] and arms the timer; the
    emotion, the songs and the details stay what they were. *)
Lemma activation_keeps_payload (w : World) :
  reachable w -> loading (st w) = false -> webcamActive (st w) = false ->
  loading (st (step ClickScanFace w)) = true /\
  timers (step ClickScanFace w) = [next_timer w] /\
  emotion (st (step ClickScanFace w)) = emotion (st w) /\
  songs (st (step ClickScanFace w)) = songs (st w) /\
  details (st (step ClickScanFace w)) = details (st w) /\
  screenshots (step ClickScanFace w) = screenshots w /\
  posts (step ClickScanFace w) = posts w.
Proof.
  intros Hr Hl Ha. destruct (idle_world _ Hr Hl) as [Ht Hf].
  destruct w as [[tx em sg dt ld wa] to tm nx sc ps fl rj].
  simpl in *. subst. unfold step, scan_disabled. simpl.
  destruct to; model; auto 8.
Qed.

(** C1, as stated, fails: after a result, a click on Scan Face sets
    [loading] for the five seconds of the timer while the songs and
    the emotion of the result are still in the cells (the empty
    string is the cleared value of [emotion]). *)
Lemma loading_payload_stale :
  ~ (forall w, reachable w -> Loading (st w) ->
               songs (st w) = [] /\ emotion (st w) = "").
Proof.
  intros H.
  destruct (H (run (tr_text_result ++ [ClickScanFace]) init)
              (reachable_run _) eq_refl) as [Hs _].
  discriminate Hs.
Qed.

(** C1, amended: at every instant at which [loading] is true the
    render shows no emotion card, no feed and no "no songs" line, so
    nothing of an earlier result is visible; and at every instant at
    which a request is open the songs are empty and the emotion is the
    empty string. *)
Theorem loading_shows_nothing_stale (w : World) :
  reachable w -> Loading (st w) ->
  (shows_emotion_card (st w) = false /\ shows_feed (st w) = false /\
   shows_no_songs (st w) = false) /\
  (inflight w <> [] -> songs (st w) = [] /\ emotion (st w) = "").
Proof.
  intros Hr Hl. split.
  - now apply loading_hides.
  - intros Hne.
    destruct (open_world _ Hr Hne) as (c & _ & _ & _ & He & Hs & _). auto.
Qed.

Lemma loading_shows_nothing_stale_witness :
  shows_feed (st (run tr_text_open init)) = false /\
  songs (st (run tr_text_open init)) = [] /\
  emotion (st (run tr_text_open init)) = "".
Proof.
  destruct (loading_shows_nothing_stale (run tr_text_open init)
              (reachable_run _) eq_refl) as [(_ & Hf & _) Hp].
  split; [exact Hf|].
  apply Hp. discriminate.
Defined.

(** ** Deactivation before the delay ends *)

(** The cleanup of the effect cancels the timer it holds and touches
    nothing else. *)
Lemma effect_cleanup_frame (w : World) :
  st (effect_cleanup w) = st w /\
  timeout (effect_cleanup w) = timeout w /\
  screenshots (effect_cleanup w) = screenshots w /\
  posts (effect_cleanup w) = posts w /\
  inflight (effect_cleanup w) = inflight w /\
  rejections (effect_cleanup w) = rejections w.
Proof.
  unfold effect_cleanup, clearTimeout. destruct (timeout w) eqn:E; simpl; auto 7.
Qed.

(** A timer that is not pending does not fire. *)
Lemma no_timer_no_fire (w : World) (id : nat) (shot : option string) :
  timers w = [] -> step (TimerFires id shot) w = w.
Proof. unfold step. now intros ->. Qed.

(** C2, as stated, fails: after Scan Face is clicked on the first
    render and the component is torn down before the timer fires,
    [loading] is still true, not false as it was before the click. *)
Lemma teardown_leaves_loading :
  ~ (forall w, reachable w ->
               loading (st w) = false -> webcamActive (st w) = false ->
               screenshots (step Teardown (step ClickScanFace w)) = screenshots w /\
               posts (step Teardown (step ClickScanFace w)) = posts w /\
               loading (st (step Teardown (step ClickScanFace w))) = loading (st w)).
Proof.
  intros H.
  destruct (H init (reachable_run []) eq_refl eq_refl) as (_ & _ & Hl).
  discriminate Hl.
Qed.

(** C2, amended: while the timer is pending a click on Scan Face is
    ignored (the button is disabled); tearing the component down
    cancels the timer, so that no frame is captured and no request is
    made then or later, and leaves every cell as it was, [loading]
    still true. *)
Theorem teardown_cancels_timer_only (w : World) :
  reachable w -> timers w <> [] ->
  step ClickScanFace w = w /\
  timers (step Teardown w) = [] /\
  st (step Teardown w) = st w /\
  Loading (st (step Teardown w)) /\
  screenshots (step Teardown w) = screenshots w /\
  posts (step Teardown w) = posts w /\
  inflight (step Teardown w) = [] /\
  (forall id shot,
     step (TimerFires id shot) (step Teardown w) = step Teardown w).
Proof.
  intros Hr Hne.
  destruct (armed_world _ Hr Hne) as (id & Ht & Ho & Hf & Hl & Ha).
  assert (Htm : timers (step Teardown w) = []).
  { unfold step, effect_cleanup, clearTimeout. rewrite Ho. simpl.
    rewrite Ht. apply remove_timer_single. }
  destruct (effect_cleanup_frame w) as (Es & _ & Ec & Ep & Ef & _).
  unfold Loading. change (step Teardown w) with (effect_cleanup w) in *.
  rewrite Es, Ec, Ep, Ef.
  repeat split; auto.
  - unfold step, scan_disabled. now rewrite Hl.
  - intros id' shot. now apply no_timer_no_fire.
Qed.

Lemma teardown_cancels_timer_only_witness :
  step ClickScanFace (run tr_armed init) = run tr_armed init /\
  timers (step Teardown (run tr_armed init)) = [] /\
  st (step Teardown (run tr_armed init)) = st (run tr_armed init).
Proof.
  assert (Hne : timers (run tr_armed init) <> []) by discriminate.
  destruct (teardown_cancels_timer_only (run tr_armed init)
              (reachable_run _) Hne) as (H1 & H2 & H3 & _).
  auto.
Defined.

(** ** The timer fires *)

(** What the expiry of the pending timer without a frame leaves: the
    payload cleared, the capture diagnostic, [loading] false, no
    request, no timer, one more call of [getScreenshot], and
    [webcamActive] as it was, true. *)
Lemma capture_failure_world (w : World) (id : nat) (shot : option string) :
  reachable w -> In id (timers w) -> falsy shot = true ->
  st (step (TimerFires id shot) w) =
    mkState (text (st w)) "" [] msg_capture false true /\
  timers (step (TimerFires id shot) w) = [] /\
  posts (step (TimerFires id shot) w) = posts w /\
  inflight (step (TimerFires id shot) w) = [] /\
  screenshots (step (TimerFires id shot) w) = S (screenshots w).
Proof.
  intros Hr Hin Hfa.
  assert (Hne : timers w <> []) by (intros E; rewrite E in Hin; destruct Hin).
  destruct (armed_world _ Hr Hne) as (j & Ht & Ho & Hf & Hl & Ha).
  rewrite Ht in Hin. destruct Hin as [->|[]].
  destruct w as [[tx em sg dt ld wa] to tm nx sc ps fl rj].
  simpl in *. subst. unfold step. simpl. rewrite Nat.eqb_refl. simpl.
  unfold fire_timer. simpl timers. rewrite remove_timer_single.
  unfold analyzeFace, webcamRef_current. model. rewrite Hfa. model. rewrite ?Nat.eqb_refl. auto 8.
Qed.

(** What the expiry of the pending timer with a frame leaves: the
    payload cleared, [loading] true, the frame posted. *)
Lemma capture_success_world (w : World) (id : nat) (img : string) :
  reachable w -> In id (timers w) -> img <> "" ->
  st (step (TimerFires id (Some img)) w) =
    mkState (text (st w)) "" [] "" true true /\
  timers (step (TimerFires id (Some img)) w) = [] /\
  posts (step (TimerFires id (Some img)) w) = posts w ++ [FaceEmotion img] /\
  inflight (step (TimerFires id (Some img)) w) = [FaceEmotion img] /\
  screenshots (step (TimerFires id (Some img)) w) = S (screenshots w).
Proof.
  intros Hr Hin Himg.
  assert (Hne : timers w <> []) by (intros E; rewrite E in Hin; destruct Hin).
  destruct (armed_world _ Hr Hne) as (j & Ht & Ho & Hf & Hl & Ha).
  rewrite Ht in Hin. destruct Hin as [->|[]].
  destruct w as [[tx em sg dt ld wa] to tm nx sc ps fl rj].
  simpl in *. subst. unfold step. simpl. rewrite Nat.eqb_refl. simpl.
  unfold fire_timer. simpl timers. rewrite remove_timer_single.
  unfold analyzeFace, webcamRef_current. model.
  assert (Hfa : falsy (Some img) = false).
  { simpl. destruct (String.eqb_spec img ""); congruence. }
  rewrite Hfa. model. rewrite ?Nat.eqb_refl. auto 8.
Qed.

(** C3: the code at the failing input.  Scan Face is clicked on the
    first render and the timer fires without a frame: the cells hold
    the capture diagnostic with [loading] false and no request was
    made, but [webcamActive] is still true, so the capture is not back
    to inactive. *)
Theorem capture_failure_stays_active :
  Error msg_capture (st (run tr_no_frame init)) /\
  posts (run tr_no_frame init) = [] /\
  timers (run tr_no_frame init) = [] /\
  webcamActive (st (run tr_no_frame init)) = true.
Proof. unfold Error. repeat split. Qed.

(** C10: after the timer fires without a frame the emotion is the
    empty string, not "neutral", the songs are empty and the details
    are the capture diagnostic, which is neither of the two analysis
    diagnostics. *)
Theorem capture_failure_payload (w : World) (id : nat) (shot : option string) :
  reachable w -> In id (timers w) -> falsy shot = true ->
  emotion (st (step (TimerFires id shot) w)) = "" /\
  emotion (st (step (TimerFires id shot) w)) <> "neutral" /\
  songs (st (step (TimerFires id shot) w)) = [] /\
  details (st (step (TimerFires id shot) w)) = msg_capture /\
  (forall c, details (st (step (TimerFires id shot) w)) <> diagnostic c).
Proof.
  intros Hr Hin Hfa.
  destruct (capture_failure_world w id shot Hr Hin Hfa) as (-> & _).
  simpl. repeat split; try discriminate.
  intros [t|i]; discriminate.
Qed.

Lemma capture_failure_payload_witness :
  emotion (st (step (TimerFires 0 None) (run tr_armed init))) = "" /\
  details (st (step (TimerFires 0 None) (run tr_armed init))) = msg_capture.
Proof.
  destruct (capture_failure_payload (run tr_armed init) 0 None
              (reachable_run _) (or_introl eq_refl) eq_refl)
    as (He & _ & _ & Hd & _).
  auto.
Defined.

(** ** Activating twice *)

(** C4: when Scan Face is clicked while the capture is off and then
    clicked again before the timer fires, the second click changes
    nothing; exactly one timer is pending; and when it fires
    [getScreenshot] is called once and no timer is left to call it
    again. *)
Theorem activate_twice_arms_once (w : World) :
  reachable w -> loading (st w) = false -> webcamActive (st w) = false ->
  step ClickScanFace (step ClickScanFace w) = step ClickScanFace w /\
  timers (step ClickScanFace (step ClickScanFace w)) = [next_timer w] /\
  (forall shot,
     screenshots (step (TimerFires (next_timer w) shot)
                       (step ClickScanFace (step ClickScanFace w)))
       = S (screenshots w) /\
     timers (step (TimerFires (next_timer w) shot)
                  (step ClickScanFace (step ClickScanFace w))) = []).
Proof.
  intros Hr Hl Ha.
  destruct (activation_keeps_payload w Hr Hl Ha)
    as (Hl1 & Ht1 & _ & _ & _ & Hc1 & _).
  assert (E : step ClickScanFace (step ClickScanFace w) = step ClickScanFace w).
  { unfold step at 1. unfold scan_disabled. now rewrite Hl1. }
  rewrite E. repeat split; auto.
  - assert (Hin : In (next_timer w) (timers (step ClickScanFace w)))
      by (rewrite Ht1; now left).
    assert (Hr1 : reachable (step ClickScanFace w)) by now apply reachable_step.
    destruct (falsy shot) eqn:Hfa.
    + destruct (capture_failure_world _ _ _ Hr1 Hin Hfa) as (_ & _ & _ & _ & Hs).
      now rewrite Hs, Hc1.
    + destruct (falsy_false _ Hfa) as (img & -> & Hne).
      destruct (capture_success_world _ _ _ Hr1 Hin Hne) as (_ & _ & _ & _ & Hs).
      now rewrite Hs, Hc1.
  - assert (Hin : In (next_timer w) (timers (step ClickScanFace w)))
      by (rewrite Ht1; now left).
    assert (Hr1 : reachable (step ClickScanFace w)) by now apply reachable_step.
    destruct (falsy shot) eqn:Hfa.
    + now destruct (capture_failure_world _ _ _ Hr1 Hin Hfa) as (_ & Ht & _).
    + destruct (falsy_false _ Hfa) as (img & -> & Hne).
      now destruct (capture_success_world _ _ _ Hr1 Hin Hne) as (_ & Ht & _).
Qed.

Lemma activate_twice_arms_once_witness :
  step ClickScanFace (step ClickScanFace init) = step ClickScanFace init /\
  timers (step ClickScanFace (step ClickScanFace init)) = [0].
Proof.
  destruct (activate_twice_arms_once init (reachable_run []) eq_refl eq_refl)
    as (H1 & H2 & _).
  auto.
Defined.

(** ** A request settles *)

Lemma settles_world (w : World) (n : nat) (c : Call) (r : Reply) :
  reachable w -> nth_error (inflight w) n = Some c ->
  st (step (Settles n r) w) = settled_state c (axios_settle r) (st w) /\
  posts (step (Settles n r) w) = posts w /\
  inflight (step (Settles n r) w) = [] /\
  timers (step (Settles n r) w) = [] /\
  screenshots (step (Settles n r) w) = screenshots w /\
  rejections (step (Settles n r) w) = rejections w.
Proof.
  intros Hr Hn.
  destruct (nth_error_open _ _ _ Hr Hn) as (-> & Hf & Ht & Hl & He & Hs & Hd).
  destruct w as [[tx em sg dt ld wa] to tm nx sc ps fl rj].
  simpl in *. subst. unfold step. simpl.
  destruct c as [t|img]; destruct (axios_settle r) as [d|];
    try (model; auto 8; fail);
    destruct wa; destruct to; model; auto 8.
Qed.

Lemma failure_rejected (r : Reply) : is_failure r -> axios_settle r = Rejected.
Proof.
  destruct r as [status d|]; simpl; [|reflexivity].
  now intros ->.
Qed.

(** C5: when the open request fails, by transport or by a status
    outside 200..299, the component leaves [loading] with the emotion
    "neutral", no songs and the fixed diagnostic of the handler that
    made the request; no request is made again. *)
Theorem failure_gives_error (w : World) (n : nat) (c : Call) (r : Reply) :
  reachable w -> nth_error (inflight w) n = Some c -> is_failure r ->
  Loading (st w) /\
  Error (diagnostic c) (st (step (Settles n r) w)) /\
  emotion (st (step (Settles n r) w)) = "neutral" /\
  posts (step (Settles n r) w) = posts w /\
  inflight (step (Settles n r) w) = [].
Proof.
  intros Hr Hn Hfail.
  destruct (nth_error_open _ _ _ Hr Hn) as (_ & _ & _ & Hl & _).
  destruct (settles_world w n c r Hr Hn) as (Hs & Hp & Hf & _).
  rewrite (failure_rejected _ Hfail) in Hs.
  unfold Loading, Error. rewrite Hs, Hp, Hf. simpl. auto 8.
Qed.

Lemma failure_gives_error_witness :
  Error msg_text (st (step (Settles 0 (HttpResponse 500 happy)) (run tr_text_open init))) /\
  Error msg_face (st (step (Settles 0 NetworkError) (run tr_face_open init))).
Proof.
  split.
  - exact (proj1 (proj2 (failure_gives_error (run tr_text_open init) 0
                           (TextEmotion "I feel great") (HttpResponse 500 happy)
                           (reachable_run _) eq_refl eq_refl))).
  - exact (proj1 (proj2 (failure_gives_error (run tr_face_open init) 0
                           (FaceEmotion "data:image/jpeg;base64,AAAA") NetworkError
                           (reachable_run _) eq_refl I))).
Defined.

(** C6: when the open request is answered with a status from 200 to
    299, the component leaves [loading] with the emotion and the
    details of the body and with the songs of the body, the very list
    when the body has one and no songs when it has none; a body
    without songs, or with an empty list of them, gives the same with
    no songs, and neither the emotion nor the details are replaced;
    the cells are not those a failure leaves, unless the body itself
    spells "neutral" and the diagnostic. *)
Theorem success_gives_result (w : World) (n : nat) (c : Call)
    (status : nat) (d : ResponseData) :
  reachable w -> nth_error (inflight w) n = Some c -> is_2xx status = true ->
  Loading (st w) /\
  Result d (st (step (Settles n (HttpResponse status d)) w)) /\
  (data_songs d = None \/ data_songs d = Some [] ->
   songs (st (step (Settles n (HttpResponse status d)) w)) = [] /\
   emotion (st (step (Settles n (HttpResponse status d)) w)) = data_emotion d /\
   details (st (step (Settles n (HttpResponse status d)) w)) = data_details d) /\
  (forall l, data_songs d = Some l ->
   songs (st (step (Settles n (HttpResponse status d)) w)) = l) /\
  loading (st (step (Settles n (HttpResponse status d)) w)) = false /\
  emotion (st (step (Settles n (HttpResponse status d)) w)) = data_emotion d /\
  details (st (step (Settles n (HttpResponse status d)) w)) = data_details d /\
  (forall r, is_failure r ->
   data_emotion d <> "neutral" \/ data_details d <> diagnostic c ->
   st (step (Settles n (HttpResponse status d)) w) <> st (step (Settles n r) w)).
Proof.
  intros Hr Hn H2.
  destruct (nth_error_open _ _ _ Hr Hn) as (_ & _ & _ & Hl & _).
  destruct (settles_world w n c (HttpResponse status d) Hr Hn) as (Hs & _).
  assert (Hok : axios_settle (HttpResponse status d) = Fulfilled d)
    by (simpl; now rewrite H2).
  rewrite Hok in Hs.
  unfold Loading, Result. rewrite Hs.
  split; [exact Hl|]. split; [simpl; auto|].
  split; [intros [E|E]; simpl; unfold songs_or_empty; rewrite E; auto|].
  split; [intros l E; simpl; unfold songs_or_empty; now rewrite E|].
  split; [reflexivity|]. split; [reflexivity|]. split; [reflexivity|].
  intros r Hfail Hdiff.
  destruct (settles_world w n c r Hr Hn) as (Hf & _).
  rewrite Hf, (failure_rejected _ Hfail). simpl.
  intros E. injection E as Ee Es Ed. destruct Hdiff as [H|H]; now apply H.
Qed.

Lemma success_gives_result_witness :
  Result happy (st (run tr_text_result init)) /\
  songs (st (run tr_text_result init)) = [songA] /\
  songs (st (step (Settles 0 (HttpResponse 200 calm)) (run tr_face_open init))) = [] /\
  st (step (Settles 0 (HttpResponse 200 calm)) (run tr_face_open init))
    <> st (step (Settles 0 NetworkError) (run tr_face_open init)).
Proof.
  pose proof (success_gives_result (run tr_text_open init) 0
                (TextEmotion "I feel great") 200 happy
                (reachable_run _) eq_refl eq_refl)
    as (_ & Hres & _ & Hsongs & _).
  pose proof (success_gives_result (run tr_face_open init) 0
                (FaceEmotion "data:image/jpeg;base64,AAAA") 200 calm
                (reachable_run _) eq_refl eq_refl)
    as (_ & _ & Hempty & _ & _ & _ & _ & Hdiff).
  split; [exact Hres|]. split; [exact (Hsongs [songA] eq_refl)|].
  split; [exact (proj1 (Hempty (or_intror eq_refl)))|].
  apply (Hdiff NetworkError I). left. discriminate.
Defined.

(** ** Deactivation after the timer has fired *)

Lemma app_run_snoc (tr : list Event) (e : Event) (a : App) :
  app_run (tr ++ [e]) a = app_step e (app_run tr a).
Proof. unfold app_run. now rewrite fold_left_app. Qed.

Lemma app_reachable_run (tr : list Event) : app_reachable (app_run tr app_init).
Proof. now exists tr. Qed.

(** A mounted component got there by [step] alone. *)
Lemma app_step_mounted (e : Event) (a : App) :
  life (app_step e a) = Mounted ->
  life a = Mounted /\ world (app_step e a) = step e (world a).
Proof.
  unfold app_step. destruct (life a) eqn:E.
  - destruct e; simpl; intros H; try discriminate H; split; reflexivity.
  - destruct e; simpl; intros H; try discriminate H; congruence.
Qed.

Lemma mounted_reachable (a : App) :
  app_reachable a -> life a = Mounted -> reachable (world a).
Proof.
  intros [tr ->]. induction tr as [|e tr IH] using rev_ind; intros Hm.
  - exact (reachable_run []).
  - rewrite app_run_snoc in *.
    destruct (app_step_mounted _ _ Hm) as [Hm' ->].
    apply reachable_step. now apply IH.
Qed.

(** C7, as stated, fails: the timer has fired with a frame and the
    request is open; the component is torn down and the service then
    answers 200 with a result.  The cells are those of before the
    reply, [loading] still true, not the result that the same reply
    leaves without the teardown. *)
Lemma reply_after_unmount_differs :
  ~ (forall a n img r,
       app_reachable a -> life a = Mounted ->
       nth_error (inflight (world a)) n = Some (FaceEmotion img) ->
       st (world (app_step (Settles n r) (app_step Teardown a)))
       = st (world (app_step (Settles n r) a))).
Proof.
  intros H.
  specialize (H (app_run tr_face_open app_init) 0
                "data:image/jpeg;base64,AAAA" (HttpResponse 200 happy)
                (app_reachable_run _) eq_refl eq_refl).
  cbv in H. discriminate H.
Qed.

(** C7, amended: while the request of [analyzeFace] is open a click
    on Scan Face is ignored, so the capture cannot be toggled off, and
    the reply is handled as ever.  A teardown runs the cleanup of the
    effect, which cancels no request: the request stays open and still
    settles, without a retry; but the component is unmounted by then,
    the setters of the continuation are dropped and the cells stay as
    the teardown found them, [loading] true. *)
Theorem unmount_drops_open_reply (a : App) (n : nat) (img : string) (r : Reply) :
  app_reachable a -> life a = Mounted ->
  nth_error (inflight (world a)) n = Some (FaceEmotion img) ->
  app_step ClickScanFace a = a /\
  st (world (app_step (Settles n r) a))
    = settled_state (FaceEmotion img) (axios_settle r) (st (world a)) /\
  life (app_step Teardown a) = Unmounted /\
  inflight (world (app_step Teardown a)) = [FaceEmotion img] /\
  st (world (app_step Teardown a)) = st (world a) /\
  inflight (world (app_step (Settles n r) (app_step Teardown a))) = [] /\
  posts (world (app_step (Settles n r) (app_step Teardown a))) = posts (world a) /\
  st (world (app_step (Settles n r) (app_step Teardown a))) = st (world a) /\
  Loading (st (world (app_step (Settles n r) (app_step Teardown a)))).
Proof.
  intros Ha Hm Hn.
  pose proof (mounted_reachable a Ha Hm) as Hr.
  destruct (nth_error_open _ _ _ Hr Hn) as (-> & Hf & _ & Hl & _).
  destruct (settles_world _ 0 _ r Hr Hn) as (Hs & _).
  destruct (effect_cleanup_frame (world a)) as (Es & _ & _ & Ep & Ef & _).
  destruct a as [w l]. cbn [world life] in *. subst l.
  unfold app_step. cbn [life world].
  change (step Teardown w) with (effect_cleanup w).
  unfold settle_unmounted, take_inflight, Loading. cbn [st posts inflight].
  rewrite Es, Ep, Ef, Hf.
  split; [f_equal; unfold step, scan_disabled; now rewrite Hl|].
  split; [exact Hs|].
  repeat split; auto.
Qed.

Lemma unmount_drops_open_reply_witness :
  inflight (world (app_step (Settles 0 (HttpResponse 200 happy))
                     (app_step Teardown (app_run tr_face_open app_init)))) = [] /\
  st (world (app_step (Settles 0 (HttpResponse 200 happy))
               (app_step Teardown (app_run tr_face_open app_init))))
  = st (world (app_run tr_face_open app_init)).
Proof.
  pose proof (unmount_drops_open_reply (app_run tr_face_open app_init) 0
                "data:image/jpeg;base64,AAAA" (HttpResponse 200 happy)
                (app_reachable_run _) eq_refl eq_refl)
    as (_ & _ & _ & _ & _ & Hi & _ & Hs & _).
  split; [exact Hi | exact Hs].
Defined.

(** ** The guard of Analyze Text *)

(** C8: with an empty text, or while [loading], a click on Analyze
    Text reaches no handler: the world is unchanged, no request is
    made; and no request for text analysis ever made carries an empty
    text. *)
Theorem empty_text_is_rejected (w : World) :
  reachable w -> text (st w) = "" \/ loading (st w) = true ->
  analyze_disabled (st w) = true /\
  step ClickAnalyzeText w = w /\
  (forall t, In (TextEmotion t) (posts w) -> t <> "").
Proof.
  intros Hr Hd.
  assert (Hdis : analyze_disabled (st w) = true).
  { unfold analyze_disabled. destruct Hd as [-> | ->]; simpl; auto.
    apply orb_true_r. }
  split; [exact Hdis|]. split.
  - unfold step. now rewrite Hdis.
  - intros t Hin.
    pose proof (inv_posts _ (reachable_Inv _ Hr)) as Hp.
    rewrite Forall_forall in Hp. exact (Hp _ Hin).
Qed.

Lemma empty_text_is_rejected_witness :
  step ClickAnalyzeText init = init /\
  step ClickAnalyzeText (run tr_text_open init) = run tr_text_open init.
Proof.
  split.
  - exact (proj1 (proj2 (empty_text_is_rejected init (reachable_run [])
                           (or_introl eq_refl)))).
  - exact (proj1 (proj2 (empty_text_is_rejected (run tr_text_open init)
                           (reachable_run _) (or_intror eq_refl)))).
Defined.

(** ** Failures stay inside the cells *)

(** C9: in every reachable world no promise of a handler has been
    rejected and the next event rejects none; [analyzeText] and the
    two continuations never throw, and [analyzeFace] does not throw
    when a pending timer calls it; a failed request leaves the fixed
    diagnostic of its handler in the cells and a failed capture the
    capture diagnostic, both with [loading] false. *)
Theorem failures_stay_in_state (w : World) :
  reachable w ->
  rejections w = 0 /\
  (forall e, rejections (step e w) = 0) /\
  completes (analyzeText w) /\
  (forall r, completes (analyzeText_resume r w) /\
             completes (analyzeFace_resume r w)) /\
  (forall id shot, In id (timers w) ->
     completes (analyzeFace shot (fire_timer id w))) /\
  (forall n c r, nth_error (inflight w) n = Some c -> is_failure r ->
     Error (diagnostic c) (st (step (Settles n r) w))) /\
  (forall id shot, In id (timers w) -> falsy shot = true ->
     Error msg_capture (st (step (TimerFires id shot) w))).
Proof.
  intros Hr.
  split; [exact (inv_rejections _ (reachable_Inv _ Hr))|].
  split; [intros e;
          exact (inv_rejections _ (reachable_Inv _ (reachable_step e _ Hr)))|].
  split; [exact I|].
  split; [intros r; destruct r; split; exact I|].
  split; [|split].
  - intros id shot Hin.
    assert (Hne : timers w <> []) by (intros E; rewrite E in Hin; destruct Hin).
    destruct (armed_world _ Hr Hne) as (j & _ & _ & _ & _ & Ha).
    unfold analyzeFace, webcamRef_current.
    replace (webcamActive (st _)) with true by (symmetry; exact Ha).
    destruct (falsy shot); [exact I|]. destruct shot; exact I.
  - intros n c r Hn Hfail.
    destruct (settles_world w n c r Hr Hn) as (Hs & _).
    rewrite Hs, (failure_rejected _ Hfail). repeat split.
  - intros id shot Hin Hfa.
    destruct (capture_failure_world w id shot Hr Hin Hfa) as (Hs & _).
    rewrite Hs. repeat split.
Qed.

Lemma failures_stay_in_state_witness :
  rejections (run tr_no_frame init) = 0 /\
  completes (analyzeFace None (fire_timer 0 (run tr_armed init))).
Proof.
  split.
  - exact (proj1 (failures_stay_in_state (run tr_no_frame init) (reachable_run _))).
  - exact (proj1 (proj2 (proj2 (proj2 (proj2
             (failures_stay_in_state (run tr_armed init) (reachable_run _))))))
             0 None (or_introl eq_refl)).
Defined.

(** * Further properties of the workflow *)

(** ** What is pending *)

(** X1: at any time at most one thing is pending, a capture timer or
    a request, never both and never two of a kind. *)
Theorem one_thing_pending (w : World) :
  reachable w -> length (timers w) + length (inflight w) <= 1.
Proof.
  intros Hr. destruct (inv_mode _ (reachable_Inv _ Hr))
    as [Ht Hf|id Ht Ho Hf Hl Ha|c Ht Hf Hl He Hs Hd];
    rewrite Ht, Hf; simpl; lia.
Qed.

Lemma one_thing_pending_witness :
  length (timers (run tr_face_open init)) +
  length (inflight (run tr_face_open init)) <= 1.
Proof. exact (one_thing_pending _ (reachable_run tr_face_open)). Defined.

Lemma quiet_idle_step (e : Event) (w : World) :
  is_teardown e = false -> Inv w -> quiet_idle w -> quiet_idle (step e w).
Proof.
  intros He [Hm Hr Hp] Hq. unfold quiet_idle in *.
  destruct w as [[tx em sg dt ld wa] to tm nx sc ps fl rj].
  simpl in Hq.
  destruct e as [t| | |id shot|n r|]; try discriminate He; unfold step.
  - exact Hq.
  - unfold analyze_disabled. simpl.
    destruct ld; simpl; [exact Hq|].
    destruct (String.eqb tx ""); simpl; [exact Hq|].
    model. intros _ Hf. destruct fl; simpl in Hf; discriminate Hf.
  - unfold scan_disabled. simpl.
    destruct ld; simpl; [exact Hq|].
    destruct Hm as [Ht Hf|j Ht Ho Hf Hl Ha|c Ht Hf Hl He' Hs Hd];
      simpl in *; subst; try discriminate.
    destruct wa; destruct to; model; intros Ht Hf;
      try reflexivity; discriminate Ht.
  - destruct (existsb (Nat.eqb id) (timers _)) eqn:Hex; [|exact Hq].
    destruct Hm as [Ht Hf|j Ht Ho Hf Hl Ha|c Ht Hf Hl He' Hs Hd];
      simpl in *; subst; try discriminate.
    unfold analyzeFace, webcamRef_current. model.
    destruct (falsy shot) eqn:Hfa.
    + model. reflexivity.
    + destruct (falsy_false _ Hfa) as (img & -> & Hne). model.
      intros _ Hf. discriminate Hf.
  - change (inflight (mkWorld (mkState tx em sg dt ld wa) to tm nx sc ps fl rj))
      with fl.
    destruct (nth_error fl n) as [c|] eqn:Hn; [|exact Hq].
    destruct c as [t|img]; destruct (axios_settle r); destruct wa;
      destruct to; model; reflexivity.
Qed.

Lemma quiet_idle_run (tr : list Event) :
  stays_mounted tr = true -> quiet_idle (run tr init).
Proof.
  induction tr as [|e tr IH] using rev_ind; intros Hm.
  - intros _ _. reflexivity.
  - unfold stays_mounted in Hm. rewrite forallb_app in Hm.
    apply andb_true_iff in Hm. destruct Hm as [Hm He].
    simpl in He. rewrite andb_true_r in He. apply negb_true_iff in He.
    rewrite run_snoc. apply quiet_idle_step; auto. apply Inv_run.
Qed.

(** X2: while the component stays mounted, [loading] (the spinner and
    the disabling of both buttons) is on exactly while a capture timer
    or a request is pending. *)
Theorem loading_iff_pending (tr : list Event) :
  stays_mounted tr = true ->
  (loading (st (run tr init)) = true <->
   timers (run tr init) <> [] \/ inflight (run tr init) <> []).
Proof.
  intros Hm. split.
  - intros Hl.
    destruct (timers (run tr init)) eqn:Ht; [|left; discriminate].
    destruct (inflight (run tr init)) eqn:Hf; [|right; discriminate].
    pose proof (quiet_idle_run tr Hm Ht Hf). congruence.
  - intros [Hne|Hne].
    + now destruct (armed_world _ (reachable_run tr) Hne) as (_ & _ & _ & _ & Hl & _).
    + now destruct (open_world _ (reachable_run tr) Hne) as (_ & _ & _ & Hl & _).
Qed.

Lemma loading_iff_pending_witness :
  loading (st (run tr_text_result init)) = true <->
  timers (run tr_text_result init) <> [] \/ inflight (run tr_text_result init) <> [].
Proof. exact (loading_iff_pending tr_text_result eq_refl). Defined.

(** X3: a click that changes anything is made with nothing pending;
    put otherwise, while a timer or a request is pending both buttons
    are dead. *)
Theorem click_accepted_only_when_idle (e : Event) (w : World) :
  reachable w -> is_click e = true -> step e w <> w ->
  loading (st w) = false /\ timers w = [] /\ inflight w = [].
Proof.
  intros Hr Hc Hne.
  assert (Hl : loading (st w) = false).
  { destruct (loading (st w)) eqn:Hl; [|reflexivity].
    exfalso. apply Hne.
    destruct e; try discriminate Hc; unfold step.
    - unfold analyze_disabled. now rewrite Hl.
    - unfold scan_disabled. now rewrite Hl. }
  split; [exact Hl|]. now apply idle_world.
Qed.

Lemma click_accepted_only_when_idle_witness :
  loading (st init) = false /\ timers init = [] /\ inflight init = [].
Proof.
  apply (click_accepted_only_when_idle ClickScanFace init (reachable_run []) eq_refl).
  discriminate.
Defined.

(** X4: nothing but typing changes the text field: no click, timer,
    reply or teardown clears or rewrites what the user typed. *)
Theorem only_typing_changes_text (e : Event) (w : World) :
  is_typing e = false -> text (st (step e w)) = text (st w).
Proof.
  intros He.
  destruct w as [[tx em sg dt ld wa] to tm nx sc ps fl rj].
  destruct e as [t| | |id shot|n r|]; try discriminate He; unfold step.
  - unfold analyze_disabled. simpl.
    destruct ld; simpl; [reflexivity|].
    destruct (String.eqb tx ""); reflexivity.
  - unfold scan_disabled. simpl.
    destruct ld; simpl; [reflexivity|].
    destruct wa; destruct to; reflexivity.
  - destruct (existsb (Nat.eqb id) (timers _)); [|reflexivity].
    unfold analyzeFace, webcamRef_current. model.
    destruct wa; [|reflexivity].
    destruct (falsy shot); [reflexivity|]. destruct shot; reflexivity.
  - change (inflight (mkWorld (mkState tx em sg dt ld wa) to tm nx sc ps fl rj))
      with fl.
    destruct (nth_error fl n) as [c|]; [|reflexivity].
    destruct c as [t|img]; destruct (axios_settle r); destruct wa;
      destruct to; reflexivity.
  - unfold effect_cleanup, clearTimeout. simpl. destruct to; reflexivity.
Qed.

Lemma only_typing_changes_text_witness :
  text (st (step (Settles 0 NetworkError) (run tr_text_open init)))
  = text (st (run tr_text_open init)).
Proof.
  exact (only_typing_changes_text (Settles 0 NetworkError) (run tr_text_open init) eq_refl).
Defined.

(** ** What is posted *)

(** X5: no request for face analysis ever carries an empty image. *)
Theorem face_posts_carry_a_frame (w : World) (img : string) :
  reachable w -> In (FaceEmotion img) (posts w) -> img <> "".
Proof.
  intros Hr Hin.
  pose proof (inv_posts _ (reachable_Inv _ Hr)) as Hp.
  rewrite Forall_forall in Hp. exact (Hp _ Hin).
Qed.

Lemma face_posts_carry_a_frame_witness :
  "data:image/jpeg;base64,AAAA" <> "".
Proof.
  exact (face_posts_carry_a_frame (run tr_face_open init) _
           (reachable_run _) (or_introl eq_refl)).
Defined.

(** X6: a request is only ever made by an accepted click on Analyze
    Text, which posts the text field as it is, or by a timer firing
    with a frame, which posts that frame after one call of
    [getScreenshot]; typing, a reply (no retry), a teardown or a click
    on Scan Face post nothing. *)
Theorem posts_come_from_triggers (e : Event) (w : World) :
  posts (step e w) = posts w \/
  (e = ClickAnalyzeText /\ text (st w) <> "" /\
   posts (step e w) = posts w ++ [TextEmotion (text (st w))]) \/
  (exists id img, e = TimerFires id (Some img) /\ img <> "" /\
     posts (step e w) = posts w ++ [FaceEmotion img] /\
     screenshots (step e w) = S (screenshots w)).
Proof.
  destruct w as [[tx em sg dt ld wa] to tm nx sc ps fl rj].
  destruct e as [t| | |id shot|n r|]; unfold step.
  - left. reflexivity.
  - unfold analyze_disabled. simpl.
    destruct ld; simpl; [now left|].
    destruct (String.eqb_spec tx "") as [->|Hne]; simpl; [now left|].
    right. left. auto.
  - left. unfold scan_disabled. simpl.
    destruct ld; simpl; [reflexivity|].
    destruct wa; destruct to; reflexivity.
  - destruct (existsb (Nat.eqb id) (timers _)); [|now left].
    model_lists. destruct wa; [|now left].
    destruct (falsy shot) eqn:Hfa; [now left|].
    destruct (falsy_false _ Hfa) as (img & -> & Hne).
    right. right. exists id, img. auto.
  - left.
    change (inflight (mkWorld (mkState tx em sg dt ld wa) to tm nx sc ps fl rj))
      with fl.
    destruct (nth_error fl n) as [c|]; [|reflexivity].
    destruct c as [t|img]; destruct (axios_settle r); destruct wa;
      destruct to; reflexivity.
  - left. unfold effect_cleanup, clearTimeout. simpl. destruct to; reflexivity.
Qed.

(** ** What the page shows *)

(** X7: whenever the emotion card is on the page, exactly one of the
    feed and the "no songs" line is there with it. *)
Theorem card_comes_with_feed_or_no_songs (s : State) :
  card (render s) <> None ->
  (feed (render s) = None <-> no_songs_line (render s) = true).
Proof.
  unfold render, shows_emotion_card, shows_feed, shows_no_songs. simpl.
  destruct (String.eqb (emotion s) ""); simpl; [congruence|].
  destruct (loading s); simpl; [congruence|]. intros _.
  destruct (songs s) as [|x l]; simpl; split; intros H; congruence.
Qed.

Lemma card_comes_with_feed_or_no_songs_witness :
  feed (render (st (run tr_text_result init))) = None <->
  no_songs_line (render (st (run tr_text_result init))) = true.
Proof.
  apply (card_comes_with_feed_or_no_songs (st (run tr_text_result init))).
  discriminate.
Defined.

(** X8: after the timer has fired without a frame the page shows no
    spinner, no card, no feed and no "no songs" line: the capture
    diagnostic sits in [details], which only the card would show; the
    webcam is still mounted and the enabled Scan Face button still
    reads "Analyzing... (5s)". *)
Theorem capture_failure_shows_nothing (w : World) (id : nat) (shot : option string) :
  reachable w -> In id (timers w) -> falsy shot = true ->
  render (st (step (TimerFires id shot) w)) =
    mkView (String.eqb (text (st w)) "") false "Analyzing... (5s)" true
           false None None false.
Proof.
  intros Hr Hin Hfa.
  destruct (capture_failure_world w id shot Hr Hin Hfa) as (-> & _).
  reflexivity.
Qed.

Lemma capture_failure_shows_nothing_witness :
  render (st (run tr_no_frame init)) =
    mkView true false "Analyzing... (5s)" true false None None false.
Proof.
  exact (capture_failure_shows_nothing (run tr_armed init) 0 None
           (reachable_run _) (or_introl eq_refl) eq_refl).
Defined.

(** X9: a failed request is shown as a playlist: the card of the
    emotion "neutral" with the placeholder image, the diagnostic as
    its details and zero songs, together with the "no songs" line and
    without a feed. *)
Theorem analysis_failure_shows_neutral_card (w : World) (n : nat) (c : Call) (r : Reply) :
  reachable w -> nth_error (inflight w) n = Some c -> is_failure r ->
  spinner (render (st (step (Settles n r) w))) = false /\
  card (render (st (step (Settles n r) w)))
    = Some (mkCard placeholder "neutral" (diagnostic c) 0) /\
  feed (render (st (step (Settles n r) w))) = None /\
  no_songs_line (render (st (step (Settles n r) w))) = true.
Proof.
  intros Hr Hn Hfail.
  destruct (settles_world w n c r Hr Hn) as (-> & _).
  rewrite (failure_rejected _ Hfail).
  destruct c; repeat split.
Qed.

Lemma analysis_failure_shows_neutral_card_witness :
  card (render (st (step (Settles 0 (HttpResponse 500 happy)) (run tr_text_open init))))
  = Some (mkCard placeholder "neutral" msg_text 0).
Proof.
  exact (proj1 (proj2 (analysis_failure_shows_neutral_card (run tr_text_open init) 0
                         (TextEmotion "I feel great") (HttpResponse 500 happy)
                         (reachable_run _) eq_refl eq_refl))).
Defined.

Lemma when_truthy_some (u : string) :
  u <> "" -> when_truthy (Some u) = Some u.
Proof.
  intros Hne. unfold when_truthy, truthy. simpl.
  destruct (String.eqb_spec u ""); [contradiction|reflexivity].
Qed.

Lemma when_truthy_none (v : option string) :
  v = None \/ v = Some "" -> when_truthy v = None.
Proof. intros [-> | ->]; reflexivity. Qed.

Lemma or_default_some (u dflt : string) :
  u <> "" -> or_default (Some u) dflt = u.
Proof.
  intros Hne. simpl. destruct (String.eqb_spec u ""); [contradiction|reflexivity].
Qed.

Lemma or_default_none (v : option string) (dflt : string) :
  v = None \/ v = Some "" -> or_default v dflt = dflt.
Proof. intros [-> | ->]; reflexivity. Qed.

(** X10: what the page shows after a 2xx reply whose body has the
    songs [l] (no songs when the body has no list).  The feed is
    absent when [l] is empty and otherwise has one card per song, the
    i-th card made of the i-th song: its name as the text of the link,
    its url as the target, its artist, and each of its two images when
    that image is a non-empty string.  With a non-empty emotion the
    card of that emotion is shown with the number of songs, the
    details of the body or, when those are empty, "Curated based on
    your mood.", and the album image of the first song or, when there
    is no such image, the placeholder; the "no songs" line is there
    exactly when [l] is empty.  With an empty emotion neither the card
    nor the "no songs" line is shown. *)
Theorem success_shows_body (w : World) (n : nat) (c : Call)
    (status : nat) (d : ResponseData) (l : list Song) (v : View) :
  reachable w -> nth_error (inflight w) n = Some c -> is_2xx status = true ->
  data_songs d = Some l \/ (data_songs d = None /\ l = []) ->
  v = render (st (step (Settles n (HttpResponse status d)) w)) ->
  spinner v = false /\
  (l = [] -> feed v = None) /\
  (l <> [] ->
   exists cards, feed v = Some cards /\ length cards = length l /\
     forall i x, nth_error l i = Some x ->
       exists k, nth_error cards i = Some k /\
         link_text k = name x /\ link_href k = url x /\ byline k = artist x /\
         (forall u, album_image x = Some u -> u <> "" -> cover k = Some u) /\
         (album_image x = None \/ album_image x = Some "" -> cover k = None) /\
         (forall u, artist_image x = Some u -> u <> "" -> avatar k = Some u) /\
         (artist_image x = None \/ artist_image x = Some "" -> avatar k = None)) /\
  (data_emotion d <> "" ->
   exists k, card v = Some k /\
     card_emotion k = data_emotion d /\ card_songs k = length l /\
     (data_details d <> "" -> card_details k = data_details d) /\
     (data_details d = "" -> card_details k = "Curated based on your mood.") /\
     (forall x rest u, l = x :: rest -> album_image x = Some u -> u <> "" ->
        card_image k = u) /\
     (forall x rest, l = x :: rest ->
        album_image x = None \/ album_image x = Some "" ->
        card_image k = "https://via.placeholder.com/300x200") /\
     (l = [] -> card_image k = "https://via.placeholder.com/300x200" /\
                no_songs_line v = true) /\
     (l <> [] -> no_songs_line v = false)) /\
  (data_emotion d = "" -> card v = None /\ no_songs_line v = false).
Proof.
  intros Hr Hn H2 Hl ->.
  destruct (settles_world w n c (HttpResponse status d) Hr Hn) as (-> & _).
  assert (Hok : axios_settle (HttpResponse status d) = Fulfilled d)
    by (simpl; now rewrite H2).
  rewrite Hok.
  assert (Hsongs : songs_or_empty d = l).
  { unfold songs_or_empty. destruct Hl as [-> | [-> ->]]; reflexivity. }
  unfold settled_state, render, render_card, shows_emotion_card, shows_feed,
    shows_no_songs.
  cbn [text emotion songs details loading webcamActive
       spinner card feed no_songs_line negb].
  rewrite Hsongs, !andb_true_r. clear Hsongs Hl Hok.
  split; [reflexivity|]. split; [intros ->; reflexivity|]. split; [|split].
  - intros Hne. destruct l as [|x0 l0]; [contradiction|].
    exists (map render_song (x0 :: l0)).
    split; [reflexivity|]. split; [apply length_map|].
    intros i x Hi. exists (render_song x).
    split; [now apply map_nth_error|].
    unfold render_song; cbn [link_text link_href byline cover avatar].
    repeat split; auto.
    + intros u -> Hu. now apply when_truthy_some.
    + apply when_truthy_none.
    + intros u -> Hu. now apply when_truthy_some.
    + apply when_truthy_none.
  - intros Hne. destruct (String.eqb_spec (data_emotion d) ""); [contradiction|].
    cbn [negb]. eexists. split; [reflexivity|].
    cbn [card_image card_emotion card_details card_songs].
    split; [reflexivity|]. split; [reflexivity|].
    split; [intros Hd; destruct (String.eqb_spec (data_details d) "");
            [contradiction|reflexivity]|].
    split; [intros ->; reflexivity|].
    split; [intros x rest u -> Hu Hu'; cbn [first_album_image];
            rewrite Hu; now apply or_default_some|].
    split; [intros x rest -> Hu; cbn [first_album_image];
            now apply or_default_none|].
    split; [intros ->; split; reflexivity|].
    intros Hl. destruct l; [contradiction|reflexivity].
  - intros ->. change (String.eqb "" "") with true. cbn [negb].
    rewrite andb_false_r. split; reflexivity.
Qed.

Lemma success_shows_body_witness :
  exists k, card (render (st (run tr_text_result init))) = Some k /\
            card_emotion k = "happy" /\ card_songs k = 1 /\
            card_details k = "Upbeat vibes" /\
            card_image k = "https://via.placeholder.com/300x200".
Proof.
  destruct (success_shows_body (run tr_text_open init) 0
              (TextEmotion "I feel great") 200 happy [songA] _
              (reachable_run _) eq_refl eq_refl (or_introl eq_refl) eq_refl)
    as (_ & _ & _ & Hc & _).
  destruct Hc as (k & Hk & He & Hn & Hd & _ & _ & Hp & _); [discriminate|].
  exists k. split; [exact Hk|]. split; [exact He|]. split; [exact Hn|].
  split; [apply Hd; discriminate|].
  apply (Hp songA [] eq_refl). now left.
Defined.

(** ** Clicks, replies and teardown *)

(** X11: with the webcam on and nothing loading (the state a failed
    capture leaves), a click on Scan Face only switches the webcam
    off: no timer is armed, [loading] stays false and the payload
    stays; the click after it arms the timer. *)
Theorem click_on_idle_webcam_switches_off (w : World) :
  reachable w -> loading (st w) = false -> webcamActive (st w) = true ->
  st (step ClickScanFace w) =
    mkState (text (st w)) (emotion (st w)) (songs (st w)) (details (st w))
            false false /\
  timers (step ClickScanFace w) = [] /\
  inflight (step ClickScanFace w) = [] /\
  posts (step ClickScanFace w) = posts w /\
  timers (step ClickScanFace (step ClickScanFace w)) = [next_timer w] /\
  loading (st (step ClickScanFace (step ClickScanFace w))) = true.
Proof.
  intros Hr Hl Ha. destruct (idle_world _ Hr Hl) as [Ht Hf].
  destruct w as [[tx em sg dt ld wa] to tm nx sc ps fl rj].
  simpl in *. subst. unfold step, scan_disabled. simpl.
  destruct to; model; auto 8.
Qed.

Lemma click_on_idle_webcam_switches_off_witness :
  webcamActive (st (step ClickScanFace (run tr_no_frame init))) = false /\
  timers (step ClickScanFace (run tr_no_frame init)) = [].
Proof.
  pose proof (click_on_idle_webcam_switches_off (run tr_no_frame init)
                (reachable_run _) eq_refl eq_refl) as (Hs & Ht & _).
  split; [now rewrite Hs | exact Ht].
Defined.

(** X12: once the open request has settled, whatever the reply,
    nothing is pending, Scan Face is enabled again and Analyze Text is
    enabled again as soon as the text field is not empty; the webcam
    is off after a face request and as it was after a text request. *)
Theorem reply_enables_buttons (w : World) (n : nat) (c : Call) (r : Reply) :
  reachable w -> nth_error (inflight w) n = Some c ->
  timers (step (Settles n r) w) = [] /\
  inflight (step (Settles n r) w) = [] /\
  scan_button_disabled (render (st (step (Settles n r) w))) = false /\
  analyze_button_disabled (render (st (step (Settles n r) w)))
    = String.eqb (text (st w)) "" /\
  webcam_mounted (render (st (step (Settles n r) w))) = webcam_after c (st w).
Proof.
  intros Hr Hn.
  destruct (settles_world w n c r Hr Hn) as (Hs & _ & Hf & Ht & _).
  rewrite Hs, Hf, Ht.
  destruct (axios_settle r); repeat split.
Qed.

Lemma reply_enables_buttons_witness :
  scan_button_disabled
    (render (st (step (Settles 0 NetworkError) (run tr_face_open init)))) = false /\
  webcam_mounted
    (render (st (step (Settles 0 NetworkError) (run tr_face_open init)))) = false.
Proof.
  pose proof (reply_enables_buttons (run tr_face_open init) 0
                (FaceEmotion "data:image/jpeg;base64,AAAA") NetworkError
                (reachable_run _) eq_refl) as (_ & _ & Hs & _ & Hw).
  split; [exact Hs | exact Hw].
Defined.

Lemma remove_timer_idem (id : nat) (l : list nat) :
  remove_timer id (remove_timer id l) = remove_timer id l.
Proof.
  unfold remove_timer. induction l as [|j l IH]; simpl; [reflexivity|].
  destruct (j =? id) eqn:E; simpl; [exact IH|].
  rewrite E. simpl. now rewrite IH.
Qed.

(** X13: a teardown with no timer pending changes nothing at all, and
    a second teardown never changes what the first one left. *)
Theorem teardown_is_idempotent (w : World) :
  (timers w = [] -> step Teardown w = w) /\
  step Teardown (step Teardown w) = step Teardown w.
Proof.
  destruct w as [s to tm nx sc ps fl rj].
  unfold step, effect_cleanup, clearTimeout. simpl. split.
  - intros ->. destruct to; reflexivity.
  - destruct to; simpl; [|reflexivity]. now rewrite remove_timer_idem.
Qed.

Lemma teardown_is_idempotent_witness :
  step Teardown (run tr_text_result init) = run tr_text_result init.
Proof.
  exact (proj1 (teardown_is_idempotent (run tr_text_result init)) eq_refl).
Defined.

(** ** Whole cycles *)

(** X14: a whole capture cycle.  From a world with nothing loading
    and the webcam off, a click on Scan Face, the expiry of its timer
    with a frame and a 2xx reply leave the payload of the body with
    [loading] false and the webcam off, nothing pending, exactly one
    more post, that of the frame, and one more call of
    [getScreenshot]. *)
Theorem capture_cycle (w : World) (img : string) (status : nat) (d : ResponseData) :
  reachable w -> loading (st w) = false -> webcamActive (st w) = false ->
  img <> "" -> is_2xx status = true ->
  Result d (st (run [ClickScanFace; TimerFires (next_timer w) (Some img);
                     Settles 0 (HttpResponse status d)] w)) /\
  webcamActive (st (run [ClickScanFace; TimerFires (next_timer w) (Some img);
                         Settles 0 (HttpResponse status d)] w)) = false /\
  timers (run [ClickScanFace; TimerFires (next_timer w) (Some img);
               Settles 0 (HttpResponse status d)] w) = [] /\
  inflight (run [ClickScanFace; TimerFires (next_timer w) (Some img);
                 Settles 0 (HttpResponse status d)] w) = [] /\
  posts (run [ClickScanFace; TimerFires (next_timer w) (Some img);
              Settles 0 (HttpResponse status d)] w) = posts w ++ [FaceEmotion img] /\
  screenshots (run [ClickScanFace; TimerFires (next_timer w) (Some img);
                    Settles 0 (HttpResponse status d)] w) = S (screenshots w).
Proof.
  intros Hr Hl Ha Himg H2. unfold run. cbn [fold_left].
  set (w1 := step ClickScanFace w).
  destruct (activation_keeps_payload w Hr Hl Ha)
    as (_ & Ht1 & _ & _ & _ & Hc1 & Hp1).
  fold w1 in Ht1, Hc1, Hp1.
  assert (Hr1 : reachable w1) by now apply reachable_step.
  assert (Hin : In (next_timer w) (timers w1)) by (rewrite Ht1; now left).
  set (w2 := step (TimerFires (next_timer w) (Some img)) w1).
  destruct (capture_success_world w1 _ img Hr1 Hin Himg)
    as (Hs2 & _ & Hp2 & Hf2 & Hc2).
  fold w2 in Hs2, Hp2, Hf2, Hc2.
  assert (Hr2 : reachable w2) by now apply reachable_step.
  assert (Hn : nth_error (inflight w2) 0 = Some (FaceEmotion img))
    by now rewrite Hf2.
  destruct (settles_world w2 0 _ (HttpResponse status d) Hr2 Hn)
    as (Hs3 & Hp3 & Hf3 & Ht3 & Hc3 & _).
  assert (Hok : axios_settle (HttpResponse status d) = Fulfilled d)
    by (simpl; now rewrite H2).
  rewrite Hok in Hs3.
  unfold Result. rewrite Hs3, Hp3, Hf3, Ht3, Hc3, Hp2, Hc2, Hp1, Hc1.
  simpl. auto 10.
Qed.

Lemma capture_cycle_witness :
  Result happy
    (st (run [ClickScanFace; TimerFires 0 (Some "data:image/jpeg;base64,AAAA");
              Settles 0 (HttpResponse 200 happy)] init)).
Proof.
  refine (proj1 (capture_cycle init "data:image/jpeg;base64,AAAA" 200 happy
                   (reachable_run []) eq_refl eq_refl _ eq_refl)).
  discriminate.
Defined.

(** X15: what is typed while the text request is open changes neither
    the request nor its outcome: the post carries the text of the
    moment of the click, the payload is the one of the reply, and the
    text field holds what was typed last. *)
Theorem typing_while_open (w : World) (t' : string) (r : Reply) :
  reachable w -> analyze_disabled (st w) = false ->
  posts (run [ClickAnalyzeText; TypeText t'; Settles 0 r] w)
    = posts w ++ [TextEmotion (text (st w))] /\
  st (run [ClickAnalyzeText; TypeText t'; Settles 0 r] w)
    = settled_state (TextEmotion (text (st w))) (axios_settle r)
        (mkState t' "" [] "" true (webcamActive (st w))) /\
  inflight (run [ClickAnalyzeText; TypeText t'; Settles 0 r] w) = [].
Proof.
  intros Hr Hen. unfold run. cbn [fold_left].
  assert (Hl : loading (st w) = false).
  { unfold analyze_disabled in Hen. now apply orb_false_iff in Hen. }
  destruct (idle_world _ Hr Hl) as [Ht Hf].
  set (w2 := step (TypeText t') (step ClickAnalyzeText w)).
  assert (Hr2 : reachable w2) by (apply reachable_step; now apply reachable_step).
  assert (E2 : st w2 = mkState t' "" [] "" true (webcamActive (st w)) /\
               posts w2 = posts w ++ [TextEmotion (text (st w))] /\
               inflight w2 = [TextEmotion (text (st w))]).
  { unfold w2, step. rewrite Hen.
    destruct w as [[tx em sg dt ld wa] to tm nx sc ps fl rj].
    simpl in *. subst. model_lists. auto. }
  destruct E2 as (Es & Ep & Ei).
  assert (Hn : nth_error (inflight w2) 0 = Some (TextEmotion (text (st w))))
    by now rewrite Ei.
  destruct (settles_world w2 0 _ r Hr2 Hn) as (Hs3 & Hp3 & Hf3 & _).
  rewrite Hs3, Hp3, Hf3, Es, Ep. auto.
Qed.

Lemma typing_while_open_witness :
  posts (run [ClickAnalyzeText; TypeText "no"; Settles 0 NetworkError]
             (run [TypeText "hi"] init)) = [TextEmotion "hi"].
Proof.
  exact (proj1 (typing_while_open (run [TypeText "hi"] init) "no" NetworkError
                  (reachable_run _) eq_refl)).
Defined.

(** ** Dark mode *)

(** X16: after any number of toggles, from the icon or the switch,
    the theme is the starting one when the number is even and the
    other one when it is odd, and the outer box carries the class of
    that theme. *)
Theorem toggles_by_parity (n : nat) (darkMode : bool) :
  Nat.iter n toggleDarkMode darkMode = xorb (Nat.odd n) darkMode /\
  wrapper_class (Nat.iter n toggleDarkMode false)
    = (if Nat.odd n then "app-wrapper dark" else "app-wrapper light").
Proof.
  assert (H : forall b, Nat.iter n toggleDarkMode b = xorb (Nat.odd n) b).
  { induction n as [|n IH]; intros b; [reflexivity|].
    simpl Nat.iter. rewrite IH, Nat.odd_succ, <- Nat.negb_odd.
    unfold toggleDarkMode. destruct (Nat.odd n), b; reflexivity. }
  split; [apply H|].
  rewrite H. destruct (Nat.odd n); reflexivity.
Qed.

(** X17: during the five seconds of a pending capture timer the page
    shows the spinner and the mounted webcam, both buttons are
    disabled, Scan Face reads "Analyzing... (5s)", and neither card,
    feed nor "no songs" line is there. *)
Theorem armed_page (w : World) :
  reachable w -> timers w <> [] ->
  render (st w) = mkView true true "Analyzing... (5s)" true true None None false.
Proof.
  intros Hr Hne.
  destruct (armed_world _ Hr Hne) as (_ & _ & _ & _ & Hl & Ha).
  destruct (loading_hides _ Hl) as (Hc & Hf & Hs).
  unfold render, analyze_disabled, scan_disabled.
  now rewrite Hc, Hf, Hs, Hl, Ha.
Qed.

Lemma armed_page_witness :
  render (st (run (tr_text_result ++ [ClickScanFace]) init))
  = mkView true true "Analyzing... (5s)" true true None None false.
Proof.
  refine (armed_page (run (tr_text_result ++ [ClickScanFace]) init)
            (reachable_run _) _).
  discriminate.
Defined.
